(** * Qtilities: the instance descriptor [InstanceFactoryInfo]

    A shallow embedding of [src/Core/source/IFactoryProvider.h]: the
    descriptor record, its constructors, [isValid], and the sentinel framed
    binary codec [exportBinary] / [importBinary] running over a model of the
    Qt value types the header uses ([quint32], [QString], [QDataStream]) and
    of the logger behind [LOG_ERROR]. *)

From Stdlib Require Import NArith ZArith List String Ascii Bool Lia.
From Stdlib Require Import Strings.Byte.
From stdpp Require Import base strings gmap.
Import ListNotations.

Local Open Scope N_scope.

(** ** Qt value types used by the header

    [quint32], [QString] and [QDataStream] belong to Qt, not to this
    repository.  The header fixes the marker value and the order of the
    fields and leaves the encoding of integers and strings to the stream;
    the model follows what Qt documents for [QDataStream]: integers most
    significant byte first, a [QString] as its length in bytes followed by
    its UTF-16 code units, a null [QString] as [0xffffffff]; a read past the
    end of the device yields 0 or a null string and sets the status. *)

Module Qt.

(** [quint32]: an unsigned 32-bit integer, as an [N] below [2^32]. *)
Definition quint32 := N.
Definition quint32_cast (n : N) : quint32 := n mod 2 ^ 32.

(** [QChar] wraps a [ushort] code unit. *)
Definition QChar := N.
Definition QChar_wf (c : QChar) : Prop := c < 2 ^ 16.

(** [QString]: a sequence of UTF-16 code units.  Qt tells a null string
    ([QString()]) from an empty one ([QString("")]); both are [isEmpty]. *)
Inductive QString : Type :=
| QString_null
| QString_of (unicode : list QChar).

Definition unicode (s : QString) : list QChar :=
  match s with
  | QString_null => []
  | QString_of l => l
  end.

Definition isNull (s : QString) : bool :=
  match s with
  | QString_null => true
  | QString_of _ => false
  end.

Definition size (s : QString) : N := N.of_nat (length (unicode s)).

Definition isEmpty (s : QString) : bool := size s =? 0.

(** [QString(const char* )]: one code unit per character of the literal;
    the result is never null. *)
Definition fromAscii (s : string) : QString :=
  QString_of (map N_of_ascii (list_ascii_of_string s)).

(** The size of a [QString] is a C [int], and every code unit a [ushort]. *)
Definition QString_wf (s : QString) : Prop :=
  size s < 2 ^ 31 /\ Forall QChar_wf (unicode s).

(** *** Bytes *)

Definition byte_of_N (n : N) : byte :=
  match Byte.of_N (n mod 256) with
  | Some b => b
  | None => x00
  end.

(** Big-endian is the default byte order of a [QDataStream]. *)
Definition quint32_bytes (n : quint32) : list byte :=
  [byte_of_N (n / 2 ^ 24); byte_of_N (n / 2 ^ 16);
   byte_of_N (n / 2 ^ 8); byte_of_N n].

Definition quint32_of_bytes (b3 b2 b1 b0 : byte) : quint32 :=
  Byte.to_N b3 * 2 ^ 24 + Byte.to_N b2 * 2 ^ 16
  + Byte.to_N b1 * 2 ^ 8 + Byte.to_N b0.

Fixpoint ushort_bytes (l : list QChar) : list byte :=
  match l with
  | [] => []
  | c :: r => byte_of_N (c / 2 ^ 8) :: byte_of_N c :: ushort_bytes r
  end.

Fixpoint ushort_of_bytes (l : list byte) : list QChar :=
  match l with
  | hi :: lo :: r => (Byte.to_N hi * 2 ^ 8 + Byte.to_N lo) :: ushort_of_bytes r
  | _ => []
  end.

(** *** [QDataStream] over a sequential device

    [dev] holds the bytes of the device that have been written and not
    yet read: writing appends at its end, reading consumes from its
    front. *)
Inductive Status : Type := Ok | ReadPastEnd | ReadCorruptData.

Record QDataStream : Type := mkStream {
  dev : list byte;
  q_status : Status
}.

(** A stream freshly opened on a byte array. *)
Definition QDataStream_on (ba : list byte) : QDataStream :=
  {| dev := ba; q_status := Ok |}.

(** *** The program state a member function runs in: the stream passed by
    reference and the messages handed to the logger. *)
Record Env : Type := mkEnv {
  stream : QDataStream;
  logger : list string
}.

Definition M (A : Type) : Type := Env -> A * Env.

#[export] Instance M_ret : MRet M := fun A (a : A) e => (a, e).

#[export] Instance M_bind : MBind M :=
  fun A B (k : A -> M B) (m : M A) e => let (a, e') := m e in k a e'.

(** The state [e] with the device holding [bytes] instead. *)
Definition with_dev (bytes : list byte) (e : Env) : Env :=
  {| stream := {| dev := bytes; q_status := q_status (stream e) |};
     logger := logger e |}.

(** [QDataStream::setStatus]: only the first error is kept. *)
Definition setStatus (st : Status) : M unit :=
  fun e =>
    let s := stream e in
    let s' := match q_status s with
              | Ok => {| dev := dev s; q_status := st |}
              | _ => s
              end in
    (tt, {| stream := s'; logger := logger e |}).

(** [QIODevice::read(data, maxlen)]: hands out at most [maxlen] bytes. *)
Definition dev_read (maxlen : N) : M (list byte) :=
  fun e =>
    let s := stream e in
    if N.of_nat (length (dev s)) <=? maxlen
    then (dev s, {| stream := {| dev := []; q_status := q_status s |};
                    logger := logger e |})
    else (firstn (N.to_nat maxlen) (dev s),
          {| stream := {| dev := skipn (N.to_nat maxlen) (dev s);
                          q_status := q_status s |};
             logger := logger e |}).

(** [QIODevice::write(data, len)]. *)
Definition dev_write (data : list byte) : M unit :=
  fun e =>
    let s := stream e in
    (tt, {| stream := {| dev := dev s ++ data; q_status := q_status s |};
            logger := logger e |}).

(** [QDataStream::operator>>(quint32&)]: on a short read the value is 0
    and the status becomes [ReadPastEnd]. *)
Definition read_quint32 : M quint32 :=
  b ← dev_read 4;
  match b with
  | [b3; b2; b1; b0] => mret (quint32_of_bytes b3 b2 b1 b0)
  | _ => setStatus ReadPastEnd;; mret 0
  end.

(** [QDataStream::operator<<(quint32)]. *)
Definition write_quint32 (i : quint32) : M unit :=
  dev_write (quint32_bytes i).

(** [QDataStream::writeBytes(s, len)]: the length, then [len] raw bytes. *)
Definition writeBytes (s : list byte) (len : quint32) : M unit :=
  write_quint32 len;;
  if 0 <? len then dev_write (firstn (N.to_nat len) s) else mret tt.

(** [operator<<(QDataStream&, const QString&)]: a null string is the
    marker [0xffffffff]; any other string is its length in bytes followed
    by its code units, most significant byte first. *)
Definition write_QString (str : QString) : M unit :=
  if negb (isNull str)
  then writeBytes (ushort_bytes (unicode str)) (quint32_cast (2 * size str))
  else write_quint32 0xffffffff.

(** [operator>>(QDataStream&, QString&)].  Qt reads the code units in
    blocks of 1 MiB; a block that comes short ends the read with the
    device exhausted, which is what one read of [bytes] bytes gives. *)
Definition read_QString : M QString :=
  bytes ← read_quint32;
  if bytes =? 0xffffffff then mret QString_null
  else if 0 <? bytes then
    if N.odd bytes then setStatus ReadCorruptData;; mret QString_null
    else
      raw ← dev_read bytes;
      if N.of_nat (length raw) =? bytes
      then mret (QString_of (ushort_of_bytes raw))
      else setStatus ReadPastEnd;; mret QString_null
  else mret (QString_of []).

(** The bytes one [QString] occupies on the wire (Qt's documented
    serialisation format), to compare [write_QString] with. *)
Definition QString_wire (str : QString) : list byte :=
  match str with
  | QString_null => [xff; xff; xff; xff]
  | QString_of l =>
      quint32_bytes (2 * N.of_nat (length l)) ++ ushort_bytes l
  end.

(** The bytes a computation appends to an empty device. *)
Definition written {A} (m : M A) : list byte :=
  dev (stream (snd (m {| stream := QDataStream_on []; logger := [] |}))).

(** Modelled from the spec: the macro [LOG_ERROR] comes from [Logger.h],
    which is not part of [src/].  Logging is an external collaborator of
    the descriptor: the macro hands [msg] to the logger and touches neither
    the stream nor the descriptor. *)
Definition LOG_ERROR (msg : string) : M unit :=
  fun e => (tt, {| stream := stream e; logger := logger e ++ [msg] |}).

End Qt.

Import Qt.

(** ** [struct InstanceFactoryInfo] *)

Record InstanceFactoryInfo : Type := mkInfo {
  d_factory_tag : QString;
  d_instance_tag : QString;
  d_instance_name : QString
}.

Definition set_factory_tag (v : QString) (this : InstanceFactoryInfo) :=
  {| d_factory_tag := v;
     d_instance_tag := d_instance_tag this;
     d_instance_name := d_instance_name this |}.

Definition set_instance_tag (v : QString) (this : InstanceFactoryInfo) :=
  {| d_factory_tag := d_factory_tag this;
     d_instance_tag := v;
     d_instance_name := d_instance_name this |}.

Definition set_instance_name (v : QString) (this : InstanceFactoryInfo) :=
  {| d_factory_tag := d_factory_tag this;
     d_instance_tag := d_instance_tag this;
     d_instance_name := v |}.

(** The members as C++ default-constructs them before a constructor body
    runs: three null strings. *)
Definition members_default : InstanceFactoryInfo :=
  {| d_factory_tag := QString_null;
     d_instance_tag := QString_null;
     d_instance_name := QString_null |}.

(** [InstanceFactoryInfo()] *)
Definition InstanceFactoryInfo_new : InstanceFactoryInfo :=
  set_instance_name QString_null
    (set_instance_tag QString_null
       (set_factory_tag QString_null members_default)).

(** [InstanceFactoryInfo(factory_tag, instance_tag, instance_name)] *)
Definition InstanceFactoryInfo_tags
    (factory_tag instance_tag instance_name : QString) : InstanceFactoryInfo :=
  set_instance_name instance_name
    (set_instance_tag instance_tag
       (set_factory_tag factory_tag members_default)).

(** The same constructor with [instance_name] left to its default argument
    [QString()]. *)
Definition InstanceFactoryInfo_tags2 (factory_tag instance_tag : QString) :=
  InstanceFactoryInfo_tags factory_tag instance_tag QString_null.

(** [InstanceFactoryInfo(const InstanceFactoryInfo& ref)] and [operator=] *)
Definition InstanceFactoryInfo_copy (ref : InstanceFactoryInfo) :=
  set_instance_name (d_instance_name ref)
    (set_instance_tag (d_instance_tag ref)
       (set_factory_tag (d_factory_tag ref) members_default)).

Definition assign (this ref : InstanceFactoryInfo) : InstanceFactoryInfo :=
  set_instance_name (d_instance_name ref)
    (set_instance_tag (d_instance_tag ref)
       (set_factory_tag (d_factory_tag ref) this)).

(** [(quint32) 0xDDDDDDDD] *)
Definition marker : quint32 := quint32_cast 0xDDDDDDDD.

(** The two messages [importBinary] logs. *)
Definition msg_start_marker : string :=
  "InstanceFactoryInfo binary import failed to detect start marker. Import will fail.".
Definition msg_end_marker : string :=
  "InstanceFactoryInfo binary import failed to detect end marker. Import will fail.".

(** [exportBinary(QDataStream& stream) const] *)
Definition exportBinary (this : InstanceFactoryInfo) : M bool :=
  write_quint32 marker;;
  write_QString (d_factory_tag this);;
  write_QString (d_instance_name this);;
  write_QString (d_instance_tag this);;
  write_quint32 marker;;
  mret true.

(** [importBinary(QDataStream& stream)]: the result pairs the returned
    [bool] with the members of [this] as the call leaves them. *)
Definition importBinary (this : InstanceFactoryInfo)
    : M (bool * InstanceFactoryInfo) :=
  ui32 ← read_quint32;
  if negb (ui32 =? marker) then
    LOG_ERROR msg_start_marker;;
    mret (false, this)
  else
    factory_tag ← read_QString;
    let this := set_factory_tag factory_tag this in
    instance_name ← read_QString;
    let this := set_instance_name instance_name this in
    instance_tag ← read_QString;
    let this := set_instance_tag instance_tag this in
    ui32 ← read_quint32;
    if negb (ui32 =? marker) then
      LOG_ERROR msg_end_marker;;
      mret (false, this)
    else mret (true, this).

(** [InstanceFactoryInfo(QDataStream& stream)]: runs [importBinary] on the
    default-constructed members and drops the [bool] it returns. *)
Definition InstanceFactoryInfo_stream : M InstanceFactoryInfo :=
  r ← importBinary members_default;
  mret (snd r).

(** [isValid()] *)
Definition isValid (this : InstanceFactoryInfo) : bool :=
  if isEmpty (d_factory_tag this) then false
  else if isEmpty (d_instance_tag this) then false
  else true.

(** The three members are [QString]s. *)
Definition InstanceFactoryInfo_wf (this : InstanceFactoryInfo) : Prop :=
  QString_wf (d_factory_tag this)
  /\ QString_wf (d_instance_tag this)
  /\ QString_wf (d_instance_name this).

(** ** XML import *)

Module Xml.

Section ImportXML.

(** The constant the header's note calls "the Qtilities factory tag",
    and the names of the attributes holding the instance tag and the
    instance name; none of them is defined in the header. *)
Variable qti_def_FACTORY_QTILITIES : QString.
Variables instance_tag_attr instance_name_attr : string.

(** [QDomElement::attribute(name, defValue)] on the attribute map of an
    element. *)
Definition attribute (object_node : gmap string QString)
    (name : string) (defValue : QString) : QString :=
  match object_node !! name with
  | Some v => v
  | None => defValue
  end.

(** Modelled from the spec: [importXML] is declared in the header and
    defined in a source file that is not part of [src/].  It reads the
    three fields back from the attributes of [object_node]; a missing
    [FactoryTag] attribute is replaced by the default factory tag; the
    import itself succeeds.  The other two attributes are read with
    [attribute], whose default is the null string. *)
Definition importXML (this : InstanceFactoryInfo)
    (object_node : gmap string QString) : bool * InstanceFactoryInfo :=
  let this :=
    set_factory_tag
      (attribute object_node "FactoryTag" qti_def_FACTORY_QTILITIES) this in
  let this :=
    set_instance_tag
      (attribute object_node instance_tag_attr QString_null) this in
  let this :=
    set_instance_name
      (attribute object_node instance_name_attr QString_null) this in
  (true, this).

End ImportXML.

End Xml.

(** ** What a read may do to the state

    [reads e e'] relates the state before and after reading from the
    stream: the log is untouched, the device has lost a prefix, and the
    status is either unchanged or has gone from [Ok] to an error; it
    becomes [ReadPastEnd] only with the device exhausted. *)
Definition reads (e e' : Env) : Prop :=
  logger e' = logger e
  /\ (exists consumed : list byte,
        dev (stream e) = consumed ++ dev (stream e'))
  /\ (q_status (stream e') = q_status (stream e)
      \/ (q_status (stream e) = Ok
          /\ ((q_status (stream e') = ReadPastEnd /\ dev (stream e') = [])
              \/ q_status (stream e') = ReadCorruptData))).

(** ** Sample values *)

Definition env_on (ba : list byte) : Env :=
  {| stream := QDataStream_on ba; logger := [] |}.

Definition observer_info : InstanceFactoryInfo :=
  InstanceFactoryInfo_tags (fromAscii "Qtilities.ObserverFactory")
    (fromAscii "Observer") (fromAscii "MyObserver").

(** [InstanceFactoryInfo("", "Observer")] *)
Definition untagged_info : InstanceFactoryInfo :=
  InstanceFactoryInfo_tags2 (fromAscii "") (fromAscii "Observer").

(** A buffer whose fourth byte is [DC] instead of [DD]. *)
Definition bad_start_bytes : list byte :=
  [xdd; xdd; xdd; xdc; xff; xff; xff; xff; xff; xff; xff; xff;
   xff; xff; xff; xff; xdd; xdd; xdd; xdd].

(** An element that carries a name and no factory tag. *)
Definition nameless_factory_node : gmap string QString :=
  {[ "Name" := fromAscii "MyObserver" ]}.

(** ** Facts about the stream model *)

(** Linear goals over [N] with division and remainder by constants. *)
Ltac divmod := zify; Z.to_euclidean_division_equations; lia.

(** [QString_wf] of a literal. *)
Ltac wf_string := split; [reflexivity | repeat constructor].

Section StreamFacts.

Lemma to_N_byte_of_N (n : N) : Byte.to_N (byte_of_N n) = n mod 256.
Proof.
  unfold byte_of_N.
  destruct (Byte.of_N (n mod 256)) as [b|] eqn:E.
  - now apply Byte.to_of_N.
  - apply Byte.of_N_None_iff in E.
    pose proof (N.mod_upper_bound n 256). lia.
Qed.

Lemma quint32_of_bytes_bytes (n : N) :
  n < 2 ^ 32 ->
  quint32_of_bytes (byte_of_N (n / 2 ^ 24)) (byte_of_N (n / 2 ^ 16))
                   (byte_of_N (n / 2 ^ 8)) (byte_of_N n) = n.
Proof.
  intros Hn. unfold quint32_of_bytes.
  rewrite !to_N_byte_of_N.
  change (2 ^ 24) with 16777216; change (2 ^ 16) with 65536;
    change (2 ^ 8) with 256; change (2 ^ 32) with 4294967296 in Hn.
  divmod.
Qed.

Lemma quint32_of_bytes_lt (b3 b2 b1 b0 : byte) :
  quint32_of_bytes b3 b2 b1 b0 < 2 ^ 32.
Proof.
  unfold quint32_of_bytes.
  pose proof (Byte.to_N_bounded b3); pose proof (Byte.to_N_bounded b2);
    pose proof (Byte.to_N_bounded b1); pose proof (Byte.to_N_bounded b0).
  change (2 ^ 24) with 16777216; change (2 ^ 16) with 65536;
    change (2 ^ 8) with 256; change (2 ^ 32) with 4294967296.
  lia.
Qed.

Lemma ushort_of_bytes_bytes (l : list QChar) :
  Forall QChar_wf l -> ushort_of_bytes (ushort_bytes l) = l.
Proof.
  induction 1 as [|c r Hc _ IH]; simpl; [reflexivity|].
  rewrite IH, !to_N_byte_of_N. f_equal.
  unfold QChar_wf in Hc.
  change (2 ^ 8) with 256; change (2 ^ 16) with 65536 in Hc.
  divmod.
Qed.

Lemma length_ushort_bytes (l : list QChar) :
  length (ushort_bytes l) = (2 * length l)%nat.
Proof. induction l; simpl; lia. Qed.

Lemma bind_run {A B} (m : M A) (k : A -> M B) e a e' :
  m e = (a, e') -> (m ≫= k) e = k a e'.
Proof. intros H. unfold mbind, M_bind. now rewrite H. Qed.

Lemma with_dev_id (e : Env) : with_dev (dev (stream e)) e = e.
Proof. now destruct e as [[? ?] ?]. Qed.

(** *** Reading *)

Lemma dev_read_exact (a rest : list byte) (e : Env) :
  dev_read (N.of_nat (length a)) (with_dev (a ++ rest) e)
  = (a, with_dev rest e).
Proof.
  unfold dev_read, with_dev; simpl.
  destruct (N.leb_spec (N.of_nat (length (a ++ rest))) (N.of_nat (length a)))
    as [Hle|Hlt].
  - rewrite length_app in Hle.
    assert (rest = []) as -> by (destruct rest; simpl in *; [easy|lia]).
    now rewrite app_nil_r.
  - now rewrite Nat2N.id, take_app_length, drop_app_length.
Qed.

Lemma read_quint32_run (b3 b2 b1 b0 : byte) (rest : list byte) (e : Env) :
  read_quint32 (with_dev (b3 :: b2 :: b1 :: b0 :: rest) e)
  = (quint32_of_bytes b3 b2 b1 b0, with_dev rest e).
Proof.
  unfold read_quint32.
  now rewrite (bind_run _ _ _ _ _ (dev_read_exact [b3; b2; b1; b0] rest e)).
Qed.

Lemma read_quint32_bytes (n : quint32) (rest : list byte) (e : Env) :
  n < 2 ^ 32 ->
  read_quint32 (with_dev (quint32_bytes n ++ rest) e) = (n, with_dev rest e).
Proof.
  intros Hn. unfold quint32_bytes; simpl app.
  now rewrite read_quint32_run, quint32_of_bytes_bytes.
Qed.

(** A short device reads as 0, which is not the marker. *)
Lemma read_quint32_short (e : Env) :
  (length (dev (stream e)) < 4)%nat -> fst (read_quint32 e) = 0.
Proof.
  destruct e as [[d st] lg]; simpl. intros Hlen.
  unfold read_quint32, mbind, M_bind, dev_read; simpl.
  destruct d as [|? [|? [|? [|? ?]]]]; simpl in *; try lia; reflexivity.
Qed.

Lemma read_QString_wire (str : QString) (rest : list byte) (e : Env) :
  QString_wf str ->
  read_QString (with_dev (QString_wire str ++ rest) e)
  = (str, with_dev rest e).
Proof.
  intros [Hsz Hch]. unfold read_QString.
  destruct str as [|l].
  - simpl.
    now rewrite (bind_run _ _ _ _ _
                   (read_quint32_run xff xff xff xff rest e)).
  - unfold QString_wire, size in *; simpl unicode in *.
    change (2 ^ 31) with 2147483648 in Hsz.
    rewrite <- app_assoc.
    rewrite (bind_run _ _ _ _ _
               (read_quint32_bytes (2 * N.of_nat (length l)) _ e
                  ltac:(change (2 ^ 32) with 4294967296; lia))).
    destruct (N.eqb_spec (2 * N.of_nat (length l)) 0xffffffff) as [E|_];
      [lia|].
    destruct (N.ltb_spec 0 (2 * N.of_nat (length l))) as [Hpos|Hz].
    + rewrite N.odd_mul, andb_false_l.
      assert (Hlen : 2 * N.of_nat (length l)
                     = N.of_nat (length (ushort_bytes l)))
        by (rewrite length_ushort_bytes; lia).
      rewrite Hlen at 1.
      rewrite (bind_run _ _ _ _ _ (dev_read_exact (ushort_bytes l) rest e)).
      rewrite <- Hlen, N.eqb_refl.
      now rewrite ushort_of_bytes_bytes.
    + destruct l; [reflexivity|simpl in Hz; lia].
Qed.

(** Conversely, a string read without a stream error was on the wire as
    [QString_wire] has it: the inputs of the form [QString_wire str ++ rest]
    with [QString_wf str] are all the well-formed ones. *)

Lemma byte_of_N_to_N (b : byte) (n : N) :
  n mod 256 = Byte.to_N b -> byte_of_N n = b.
Proof.
  intros H. unfold byte_of_N. now rewrite H, Byte.of_to_N.
Qed.

Lemma quint32_bytes_of_bytes (b3 b2 b1 b0 : byte) :
  quint32_bytes (quint32_of_bytes b3 b2 b1 b0) = [b3; b2; b1; b0].
Proof.
  unfold quint32_bytes, quint32_of_bytes.
  pose proof (Byte.to_N_bounded b3); pose proof (Byte.to_N_bounded b2);
    pose proof (Byte.to_N_bounded b1); pose proof (Byte.to_N_bounded b0).
  change (2 ^ 24) with 16777216; change (2 ^ 16) with 65536;
    change (2 ^ 8) with 256.
  repeat f_equal; apply byte_of_N_to_N; divmod.
Qed.

Lemma ushort_bytes_of_bytes (n : nat) (raw : list byte) :
  length raw = (2 * n)%nat ->
  ushort_bytes (ushort_of_bytes raw) = raw
  /\ length (ushort_of_bytes raw) = n
  /\ Forall QChar_wf (ushort_of_bytes raw).
Proof.
  revert raw. induction n as [|n IH]; intros raw Hlen.
  - destruct raw; [now repeat split|discriminate].
  - destruct raw as [|hi [|lo raw]]; simpl in Hlen; try lia.
    destruct (IH raw ltac:(lia)) as (Hb & Hl & Hwf).
    pose proof (Byte.to_N_bounded hi); pose proof (Byte.to_N_bounded lo).
    simpl. change (2 ^ 8) with 256. repeat split.
    + rewrite Hb. f_equal; [|f_equal]; apply byte_of_N_to_N; divmod.
    + now rewrite Hl.
    + constructor; [|assumption].
      unfold QChar_wf. change (2 ^ 16) with 65536. lia.
Qed.

Lemma read_QString_ok (e e' : Env) (str : QString) :
  q_status (stream e) = Ok ->
  read_QString e = (str, e') ->
  q_status (stream e') = Ok ->
  QString_wf str /\ dev (stream e) = QString_wire str ++ dev (stream e').
Proof.
  destruct e as [[d st] lg]; simpl. intros -> Hrun Hok.
  unfold read_QString, mbind, M_bind in Hrun.
  destruct d as [|b3 [|b2 [|b1 [|b0 r]]]];
    try (injection Hrun as <- <-; discriminate Hok).
  change {| stream := {| dev := b3 :: b2 :: b1 :: b0 :: r; q_status := Ok |};
            logger := lg |}
    with (with_dev (b3 :: b2 :: b1 :: b0 :: r) (mkEnv (mkStream [] Ok) lg))
    in Hrun.
  rewrite read_quint32_run in Hrun.
  pose proof (quint32_bytes_of_bytes b3 b2 b1 b0) as Hbytes.
  pose proof (quint32_of_bytes_lt b3 b2 b1 b0) as Hlt.
  change (2 ^ 32) with 4294967296 in Hlt.
  set (v := quint32_of_bytes b3 b2 b1 b0) in *.
  destruct (N.eqb_spec v 0xffffffff) as [Ev|Ev].
  { injection Hrun as <- <-. simpl. split; [now split|].
    rewrite Ev in Hbytes. now injection Hbytes as <- <- <- <-. }
  destruct (N.ltb_spec 0 v) as [Hpos|Hz].
  2:{ injection Hrun as <- <-. simpl. split; [now split|].
      assert (v = 0) as Ez by lia. rewrite Ez in Hbytes.
      now injection Hbytes as <- <- <- <-. }
  destruct (N.odd v) eqn:Hodd; [injection Hrun as <- <-; discriminate Hok|].
  unfold dev_read, with_dev in Hrun; simpl in Hrun.
  assert (Hraw : forall raw : list byte,
             N.of_nat (length raw) = v ->
             QString_wf (QString_of (ushort_of_bytes raw))
             /\ QString_wire (QString_of (ushort_of_bytes raw))
                = [b3; b2; b1; b0] ++ raw).
  { intros raw Hlen.
    assert (Hev : N.Even v).
    { apply N.even_spec. rewrite <- N.negb_odd, Hodd. reflexivity. }
    destruct Hev as [k Hk].
    destruct (ushort_bytes_of_bytes (N.to_nat k) raw ltac:(lia))
      as (Hb & Hl & Hwf).
    split.
    - split; [|assumption]. unfold size; simpl. rewrite Hl.
      change (2 ^ 31) with 2147483648. lia.
    - unfold QString_wire. rewrite Hb, Hl, <- Hbytes. do 2 f_equal. lia. }
  destruct (N.leb_spec (N.of_nat (length r)) v) as [Hle|Hgt].
  - destruct (N.eqb_spec (N.of_nat (length r)) v) as [El|El];
      [|injection Hrun as <- <-; discriminate Hok].
    injection Hrun as <- <-.
    destruct (Hraw r El) as [Hwf Hw]. split; [exact Hwf|].
    rewrite Hw. simpl. now rewrite app_nil_r.
  - assert (El : N.of_nat (length (take (N.to_nat v) r)) = v)
      by (rewrite length_take; lia).
    rewrite El, N.eqb_refl in Hrun.
    injection Hrun as <- <-.
    destruct (Hraw _ El) as [Hwf Hw]. split; [exact Hwf|].
    rewrite Hw. simpl. now rewrite take_drop.
Qed.

(** *** Writing *)

Lemma write_quint32_run (i : quint32) (e : Env) :
  write_quint32 i e = (tt, with_dev (dev (stream e) ++ quint32_bytes i) e).
Proof. reflexivity. Qed.

Lemma write_QString_run (str : QString) (e : Env) :
  write_QString str e
  = (tt, with_dev (dev (stream e) ++ written (write_QString str)) e).
Proof.
  unfold written, write_QString, writeBytes, mbind, M_bind.
  destruct (negb (isNull str)); [|reflexivity].
  simpl. destruct (0 <? _); unfold with_dev, dev_write; simpl;
    now rewrite <- ?app_assoc.
Qed.

Lemma written_write_QString (str : QString) :
  QString_wf str -> written (write_QString str) = QString_wire str.
Proof.
  intros [Hsz _]. destruct str as [|l]; [reflexivity|].
  unfold size in Hsz; simpl in Hsz.
  change (2 ^ 31) with 2147483648 in Hsz.
  unfold written, write_QString, writeBytes, mbind, M_bind; simpl.
  unfold size, quint32_cast. change (unicode (QString_of l)) with l.
  rewrite N.mod_small by (change (2 ^ 32) with 4294967296; lia).
  destruct (N.ltb_spec 0 (2 * N.of_nat (length l))) as [Hpos|Hz];
    unfold dev_write, QString_wire, quint32_bytes; simpl.
  - do 4 f_equal. apply take_ge. rewrite length_ushort_bytes. lia.
  - destruct l; [reflexivity|simpl in Hz; lia].
Qed.

End StreamFacts.

(** ** Facts about the binary codec *)

Section CodecFacts.

Lemma marker_value : marker = 0xDDDDDDDD.
Proof. reflexivity. Qed.

Lemma marker_bytes : quint32_bytes marker = [xdd; xdd; xdd; xdd].
Proof. reflexivity. Qed.

(** Only the four bytes [DD DD DD DD] read as the marker. *)
Lemma quint32_of_bytes_marker (b3 b2 b1 b0 : byte) :
  quint32_of_bytes b3 b2 b1 b0 = marker ->
  [b3; b2; b1; b0] = [xdd; xdd; xdd; xdd].
Proof.
  intros H.
  assert (Hb : forall b, Byte.to_N b = 221 -> b = xdd).
  { intros b E. pose proof (Byte.of_to_N b) as Hb. rewrite E in Hb.
    now injection Hb. }
  unfold quint32_of_bytes in H. rewrite marker_value in H.
  pose proof (Byte.to_N_bounded b3); pose proof (Byte.to_N_bounded b2);
    pose proof (Byte.to_N_bounded b1); pose proof (Byte.to_N_bounded b0).
  change (2 ^ 24) with 16777216 in H; change (2 ^ 16) with 65536 in H;
    change (2 ^ 8) with 256 in H.
  assert (E3 : Byte.to_N b3 = 221) by lia. rewrite E3 in H.
  assert (E2 : Byte.to_N b2 = 221) by lia. rewrite E2 in H.
  assert (E1 : Byte.to_N b1 = 221) by lia. rewrite E1 in H.
  assert (E0 : Byte.to_N b0 = 221) by lia.
  now rewrite (Hb b3 E3), (Hb b2 E2), (Hb b1 E1), (Hb b0 E0).
Qed.

Lemma read_quint32_marker (e : Env) :
  fst (read_quint32 e) = marker <->
  firstn 4 (dev (stream e)) = [xdd; xdd; xdd; xdd].
Proof.
  destruct (le_lt_dec 4 (length (dev (stream e)))) as [Hge|Hlt].
  - rewrite <- (with_dev_id e) at 1.
    destruct (dev (stream e)) as [|b3 [|b2 [|b1 [|b0 rest]]]];
      simpl in Hge; try lia.
    rewrite read_quint32_run. simpl. split.
    + apply quint32_of_bytes_marker.
    + now intros [= -> -> -> ->].
  - rewrite (read_quint32_short e Hlt). split; [discriminate|].
    intros H. apply (f_equal (@length byte)) in H.
    rewrite length_take in H. cbn [length] in H. lia.
Qed.

Lemma exportBinary_run (this : InstanceFactoryInfo) (e : Env) :
  exportBinary this e
  = (true,
     with_dev (dev (stream e)
               ++ [xdd; xdd; xdd; xdd]
               ++ written (write_QString (d_factory_tag this))
               ++ written (write_QString (d_instance_name this))
               ++ written (write_QString (d_instance_tag this))
               ++ [xdd; xdd; xdd; xdd]) e).
Proof.
  unfold exportBinary.
  rewrite (bind_run _ _ _ _ _ (write_quint32_run marker e)).
  rewrite (bind_run _ _ _ _ _ (write_QString_run _ _)).
  rewrite (bind_run _ _ _ _ _ (write_QString_run _ _)).
  rewrite (bind_run _ _ _ _ _ (write_QString_run _ _)).
  rewrite (bind_run _ _ _ _ _ (write_quint32_run marker _)).
  unfold with_dev; simpl. rewrite marker_bytes.
  now rewrite <- !app_assoc.
Qed.

Lemma written_exportBinary (this : InstanceFactoryInfo) :
  written (exportBinary this)
  = [xdd; xdd; xdd; xdd]
    ++ written (write_QString (d_factory_tag this))
    ++ written (write_QString (d_instance_name this))
    ++ written (write_QString (d_instance_tag this))
    ++ [xdd; xdd; xdd; xdd].
Proof. unfold written. now rewrite exportBinary_run. Qed.

Lemma importBinary_start (this : InstanceFactoryInfo) (e : Env) :
  fst (read_quint32 e) <> marker ->
  importBinary this e
  = ((false, this), snd (LOG_ERROR msg_start_marker (snd (read_quint32 e)))).
Proof.
  intros H. unfold importBinary, mbind, M_bind.
  destruct (read_quint32 e) as [ui32 e1]; simpl in *.
  now destruct (N.eqb_spec ui32 marker).
Qed.

(** A framed input: the start marker, then three strings. What is left
    of the import is the check of the trailing 32-bit value. *)
Lemma importBinary_framed (this : InstanceFactoryInfo)
    (f n t : QString) (rest : list byte) (e : Env) :
  QString_wf f -> QString_wf n -> QString_wf t ->
  importBinary this
    (with_dev ([xdd; xdd; xdd; xdd]
               ++ QString_wire f ++ QString_wire n ++ QString_wire t
               ++ rest) e)
  = let this' := {| d_factory_tag := f; d_instance_tag := t;
                    d_instance_name := n |} in
    let r := read_quint32 (with_dev rest e) in
    if negb (fst r =? marker)
    then ((false, this'), snd (LOG_ERROR msg_end_marker (snd r)))
    else ((true, this'), snd r).
Proof.
  intros Hf Hn Ht. unfold importBinary. simpl app.
  rewrite (bind_run _ _ _ _ _ (read_quint32_run xdd xdd xdd xdd _ e)).
  change (quint32_of_bytes xdd xdd xdd xdd =? marker) with true.
  cbn [negb].
  rewrite (bind_run _ _ _ _ _ (read_QString_wire f _ e Hf)).
  rewrite (bind_run _ _ _ _ _ (read_QString_wire n _ e Hn)).
  rewrite (bind_run _ _ _ _ _ (read_QString_wire t _ e Ht)).
  unfold mbind, M_bind.
  destruct (read_quint32 (with_dev rest e)) as [ui32 e1]; simpl.
  now destruct (ui32 =? marker).
Qed.

Lemma importBinary_exportBinary (d this : InstanceFactoryInfo)
    (rest : list byte) (e : Env) :
  InstanceFactoryInfo_wf d ->
  importBinary this (with_dev (written (exportBinary d) ++ rest) e)
  = ((true, d), with_dev rest e).
Proof.
  intros (Hf & Ht & Hn).
  rewrite written_exportBinary, !written_write_QString by assumption.
  rewrite <- !app_assoc.
  rewrite importBinary_framed by assumption.
  cbv zeta. simpl app. rewrite read_quint32_run.
  now destruct d.
Qed.

End CodecFacts.

(** ** The properties of the descriptor *)

(** C1. Binary round trip: for every valid descriptor [d] (whose strings are
    [QString]s: an [int] size, [ushort] code units), [exportBinary] succeeds
    and appends [written (exportBinary d)] to the device, and [importBinary]
    on a device that starts with these bytes succeeds, consumes exactly them
    and leaves the three members equal to those of [d], whatever they were
    before.  In particular decoding the very stream the encoder wrote on an
    empty device gives [d] back. *)
Theorem binary_round_trip (d : InstanceFactoryInfo) :
  isValid d = true ->
  InstanceFactoryInfo_wf d ->
  (forall e : Env,
      exportBinary d e
      = (true, with_dev (dev (stream e) ++ written (exportBinary d)) e))
  /\ (forall (this : InstanceFactoryInfo) (rest : list byte) (e : Env),
        importBinary this (with_dev (written (exportBinary d) ++ rest) e)
        = ((true, d), with_dev rest e))
  /\ (forall (this : InstanceFactoryInfo) (e : Env),
        dev (stream e) = [] ->
        importBinary this (snd (exportBinary d e)) = ((true, d), e)).
Proof.
  intros _ Hwf. split; [|split].
  - intros e. now rewrite exportBinary_run, written_exportBinary.
  - intros this rest e. now apply importBinary_exportBinary.
  - intros this e He.
    rewrite exportBinary_run, <- written_exportBinary, He. simpl.
    rewrite <- (app_nil_r (written (exportBinary d))).
    rewrite importBinary_exportBinary by assumption.
    now rewrite <- He, with_dev_id.
Qed.

Lemma binary_round_trip_witness :
  importBinary members_default (snd (exportBinary observer_info (env_on [])))
  = ((true, observer_info), env_on []).
Proof.
  assert (Hv : isValid observer_info = true) by reflexivity.
  assert (Hwf : InstanceFactoryInfo_wf observer_info)
    by (repeat split; repeat constructor).
  destruct (binary_round_trip observer_info Hv Hwf) as (_ & _ & H).
  apply H. reflexivity.
Defined.

(** C2. Validity law: [isValid] is [true] exactly when the factory tag and
    the instance tag are both non-empty, and the instance name has no part
    in it. *)
Theorem isValid_iff_tags_nonempty (d : InstanceFactoryInfo) :
  (isValid d = true <->
   isEmpty (d_factory_tag d) = false /\ isEmpty (d_instance_tag d) = false)
  /\ (forall name : QString, isValid (set_instance_name name d) = isValid d).
Proof.
  split.
  - unfold isValid.
    destruct (isEmpty (d_factory_tag d)), (isEmpty (d_instance_tag d));
      intuition congruence.
  - reflexivity.
Qed.

(** C3. Binary layout: [exportBinary] returns [true] on every descriptor and
    every stream, and what it appends to the device is, in this order, the
    four bytes of [0xDDDDDDDD], the factory tag, the instance name, the
    instance tag, and the four bytes of [0xDDDDDDDD] again; the status of
    the stream and the log are left alone. *)
Theorem exportBinary_layout (this : InstanceFactoryInfo) (e : Env) :
  exportBinary this e
  = (true,
     with_dev (dev (stream e)
               ++ quint32_bytes 0xDDDDDDDD
               ++ written (write_QString (d_factory_tag this))
               ++ written (write_QString (d_instance_name this))
               ++ written (write_QString (d_instance_tag this))
               ++ quint32_bytes 0xDDDDDDDD) e)
  /\ marker = 0xDDDDDDDD
  /\ quint32_bytes 0xDDDDDDDD = [xdd; xdd; xdd; xdd].
Proof.
  split; [|split; reflexivity].
  rewrite exportBinary_run. reflexivity.
Qed.

(** C4. Start marker: when the first 32-bit value read from the stream is
    not [0xDDDDDDDD], [importBinary] returns [false] and the three members
    are what they were; nothing after that value is read. *)
Theorem importBinary_rejects_bad_start (this : InstanceFactoryInfo) (e : Env) :
  fst (read_quint32 e) <> marker ->
  importBinary this e
  = ((false, this), snd (LOG_ERROR msg_start_marker (snd (read_quint32 e)))).
Proof. apply importBinary_start. Qed.

Lemma importBinary_rejects_bad_start_witness :
  fst (importBinary observer_info (env_on bad_start_bytes))
  = (false, observer_info).
Proof.
  rewrite (importBinary_rejects_bad_start observer_info (env_on bad_start_bytes)).
  - reflexivity.
  - vm_compute. discriminate.
Defined.

(** C5. End marker: on an input made of the start marker and three
    well-formed strings, [importBinary] returns [false] when the 32-bit
    value that follows is not [0xDDDDDDDD]. *)
Theorem importBinary_rejects_bad_end
    (this : InstanceFactoryInfo) (f n t : QString) (rest : list byte) (e : Env) :
  QString_wf f -> QString_wf n -> QString_wf t ->
  fst (read_quint32 (with_dev rest e)) <> marker ->
  fst (fst (importBinary this
              (with_dev (quint32_bytes 0xDDDDDDDD
                         ++ QString_wire f ++ QString_wire n ++ QString_wire t
                         ++ rest) e)))
  = false.
Proof.
  intros Hf Hn Ht Hend.
  change (quint32_bytes 0xDDDDDDDD) with [xdd; xdd; xdd; xdd].
  rewrite importBinary_framed by assumption. cbv zeta.
  now destruct (N.eqb_spec (fst (read_quint32 (with_dev rest e))) marker).
Qed.

Lemma importBinary_rejects_bad_end_witness :
  fst (fst (importBinary observer_info
              (with_dev (quint32_bytes 0xDDDDDDDD
                         ++ QString_wire (fromAscii "A")
                         ++ QString_wire QString_null
                         ++ QString_wire (fromAscii "B")
                         ++ [xdd; xdd; xdd; xdc]) (env_on []))))
  = false.
Proof.
  apply (importBinary_rejects_bad_end observer_info (fromAscii "A")
           QString_null (fromAscii "B") [xdd; xdd; xdd; xdc] (env_on [])).
  - wf_string.
  - wf_string.
  - wf_string.
  - vm_compute. discriminate.
Defined.

(** C6. The parameterless constructor gives three empty (null) strings, and
    [isValid] is [false] on the result. *)
Theorem default_constructor_empty_invalid :
  InstanceFactoryInfo_new
  = {| d_factory_tag := QString_null; d_instance_tag := QString_null;
       d_instance_name := QString_null |}
  /\ isEmpty (d_factory_tag InstanceFactoryInfo_new) = true
  /\ isEmpty (d_instance_tag InstanceFactoryInfo_new) = true
  /\ isEmpty (d_instance_name InstanceFactoryInfo_new) = true
  /\ isValid InstanceFactoryInfo_new = false.
Proof. repeat split. Qed.

(** C7. The constructor from tags stores what it is given, valid or not:
    [InstanceFactoryInfo("", "Observer")] is not valid, yet [exportBinary]
    returns [true] on it and [importBinary] on what was written returns
    [true] and restores the same three members. *)
Theorem untagged_info_round_trip :
  (forall factory_tag instance_tag instance_name : QString,
      InstanceFactoryInfo_tags factory_tag instance_tag instance_name
      = {| d_factory_tag := factory_tag; d_instance_tag := instance_tag;
           d_instance_name := instance_name |})
  /\ isValid untagged_info = false
  /\ (forall e : Env, fst (exportBinary untagged_info e) = true)
  /\ (forall (this : InstanceFactoryInfo) (rest : list byte) (e : Env),
        importBinary this
          (with_dev (written (exportBinary untagged_info) ++ rest) e)
        = ((true, untagged_info), with_dev rest e))
  /\ importBinary members_default
       (snd (exportBinary untagged_info (env_on [])))
     = ((true,
         {| d_factory_tag := fromAscii ""; d_instance_tag := fromAscii "Observer";
            d_instance_name := QString_null |}),
        env_on []).
Proof.
  split; [reflexivity|]. split; [reflexivity|]. split; [|split].
  - intros e. now rewrite exportBinary_run.
  - intros this rest e. apply importBinary_exportBinary.
    repeat split; repeat constructor.
  - reflexivity.
Qed.

(** C8. XML default: on an element without a [FactoryTag] attribute,
    [importXML] returns [true] and the factory tag becomes the default
    factory tag. *)
Theorem importXML_default_factory_tag
    (qti_def_FACTORY_QTILITIES : QString)
    (instance_tag_attr instance_name_attr : string)
    (this : InstanceFactoryInfo) (object_node : gmap string QString) :
  object_node !! "FactoryTag" = None ->
  fst (Xml.importXML qti_def_FACTORY_QTILITIES instance_tag_attr
         instance_name_attr this object_node) = true
  /\ d_factory_tag
       (snd (Xml.importXML qti_def_FACTORY_QTILITIES instance_tag_attr
               instance_name_attr this object_node))
     = qti_def_FACTORY_QTILITIES.
Proof.
  intros Habsent. split; [reflexivity|].
  simpl. unfold Xml.attribute. now rewrite Habsent.
Qed.

Lemma importXML_default_factory_tag_witness :
  d_factory_tag
    (snd (Xml.importXML (fromAscii "FactoryQtilities") "InstanceTag" "Name"
            observer_info nameless_factory_node))
  = fromAscii "FactoryQtilities".
Proof.
  apply (importXML_default_factory_tag (fromAscii "FactoryQtilities")
           "InstanceTag" "Name" observer_info nameless_factory_node).
  vm_compute. reflexivity.
Defined.

(** C9. A failed end-marker check is not atomic: on an input made of the
    start marker, three well-formed strings and a 32-bit value other than
    [0xDDDDDDDD], [importBinary] returns [false] with the factory tag, the
    instance name and the instance tag overwritten by the three strings
    read, in this order. *)
Theorem importBinary_bad_end_overwrites
    (this : InstanceFactoryInfo) (f n t : QString) (rest : list byte) (e : Env) :
  QString_wf f -> QString_wf n -> QString_wf t ->
  fst (read_quint32 (with_dev rest e)) <> marker ->
  importBinary this
    (with_dev (quint32_bytes 0xDDDDDDDD
               ++ QString_wire f ++ QString_wire n ++ QString_wire t
               ++ rest) e)
  = ((false,
      {| d_factory_tag := f; d_instance_tag := t; d_instance_name := n |}),
     snd (LOG_ERROR msg_end_marker (snd (read_quint32 (with_dev rest e))))).
Proof.
  intros Hf Hn Ht Hend.
  change (quint32_bytes 0xDDDDDDDD) with [xdd; xdd; xdd; xdd].
  rewrite importBinary_framed by assumption. cbv zeta.
  now destruct (N.eqb_spec (fst (read_quint32 (with_dev rest e))) marker).
Qed.

Lemma importBinary_bad_end_overwrites_witness :
  fst (importBinary observer_info
         (with_dev (quint32_bytes 0xDDDDDDDD
                    ++ QString_wire (fromAscii "A")
                    ++ QString_wire QString_null
                    ++ QString_wire (fromAscii "B")
                    ++ [xdd; xdd; xdd; xdc]) (env_on [])))
  = (false,
     {| d_factory_tag := fromAscii "A"; d_instance_tag := fromAscii "B";
        d_instance_name := QString_null |}).
Proof.
  rewrite (importBinary_bad_end_overwrites observer_info (fromAscii "A")
             QString_null (fromAscii "B") [xdd; xdd; xdd; xdc] (env_on [])).
  - reflexivity.
  - wf_string.
  - wf_string.
  - wf_string.
  - vm_compute. discriminate.
Defined.

(** C10. The constructor from a stream returns the members [importBinary]
    leaves and nothing of its [bool]: a stream on which the import succeeds
    and one on which it fails can construct the same descriptor.  When the
    first 32-bit value of the stream is not [0xDDDDDDDD], the constructed
    descriptor has three empty strings and is not valid. *)
Theorem stream_constructor_drops_status (e : Env) :
  InstanceFactoryInfo_stream e
  = (snd (fst (importBinary members_default e)),
     snd (importBinary members_default e))
  /\ (exists e_ok e_bad : Env,
        fst (fst (importBinary members_default e_ok)) = true
        /\ fst (fst (importBinary members_default e_bad)) = false
        /\ fst (InstanceFactoryInfo_stream e_ok)
           = fst (InstanceFactoryInfo_stream e_bad))
  /\ (fst (read_quint32 e) <> marker ->
      let d := fst (InstanceFactoryInfo_stream e) in
      isEmpty (d_factory_tag d) = true
      /\ isEmpty (d_instance_tag d) = true
      /\ isEmpty (d_instance_name d) = true
      /\ isValid d = false).
Proof.
  assert (Hrun : InstanceFactoryInfo_stream e
                 = (snd (fst (importBinary members_default e)),
                    snd (importBinary members_default e))).
  { unfold InstanceFactoryInfo_stream, mbind, M_bind.
    now destruct (importBinary members_default e) as [[ok d] e1]. }
  split; [exact Hrun|]. split.
  - exists (env_on (written (exportBinary members_default))), (env_on []).
    now vm_compute.
  - intros Hstart. rewrite Hrun.
    rewrite (importBinary_start members_default e Hstart). now cbn.
Qed.

Lemma stream_constructor_drops_status_witness :
  isValid (fst (InstanceFactoryInfo_stream (env_on bad_start_bytes))) = false.
Proof.
  destruct (stream_constructor_drops_status (env_on bad_start_bytes))
    as (_ & _ & H).
  apply H. vm_compute. discriminate.
Defined.

(** ** Further facts about the reads *)

Section ReadFacts.

Lemma reads_refl (e : Env) : reads e e.
Proof. split; [|split]; [reflexivity|now exists []|now left]. Qed.

Lemma reads_trans (e1 e2 e3 : Env) : reads e1 e2 -> reads e2 e3 -> reads e1 e3.
Proof.
  intros (Hl1 & [c1 Hc1] & Hs1) (Hl2 & [c2 Hc2] & Hs2). split; [|split].
  - congruence.
  - exists (c1 ++ c2). now rewrite <- app_assoc, <- Hc2.
  - destruct Hs2 as [E2|[E2 H2]].
    + rewrite E2. destruct Hs1 as [E1|[E1 [[H1 D1]|H1]]]; [now left|right..].
      * split; [assumption|left]. split; [assumption|].
        rewrite D1 in Hc2. now destruct c2, (dev (stream e3)).
      * now split; [|right].
    + destruct Hs1 as [E1|[E1 [[H1 _]|H1]]]; [|congruence..].
      right. split; [congruence|assumption].
Qed.

Lemma reads_exhausted (e e' : Env) :
  reads e e' -> dev (stream e) = [] -> dev (stream e') = [].
Proof.
  intros (_ & [c Hc] & _) He. rewrite He in Hc.
  now destruct c, (dev (stream e')).
Qed.

Lemma reads_status_Ok (e e' : Env) :
  reads e e' -> q_status (stream e') = Ok -> q_status (stream e) = Ok.
Proof.
  intros (_ & _ & [E|[E [[H _]|H]]]) Hok; congruence.
Qed.

(** Once the status is [ReadPastEnd] after reading from an [Ok] stream,
    the device is empty. *)
Lemma reads_past_end (e e' : Env) :
  reads e e' -> q_status (stream e) = Ok ->
  q_status (stream e') = ReadPastEnd -> dev (stream e') = [].
Proof.
  intros (_ & _ & [E|[_ [[_ D]|H]]]) Hok Hpe; congruence.
Qed.

Lemma read_quint32_cases (e : Env) :
  (exists b3 b2 b1 b0 rest,
      dev (stream e) = b3 :: b2 :: b1 :: b0 :: rest
      /\ read_quint32 e = (quint32_of_bytes b3 b2 b1 b0, with_dev rest e))
  \/ ((length (dev (stream e)) < 4)%nat
      /\ read_quint32 e = (0, snd (setStatus ReadPastEnd (with_dev [] e)))).
Proof.
  destruct e as [[d st] lg].
  destruct d as [|b3 [|b2 [|b1 [|b0 rest]]]];
    try (right; split; [simpl; lia|reflexivity]).
  left. exists b3, b2, b1, b0, rest. split; [reflexivity|].
  exact (read_quint32_run b3 b2 b1 b0 rest (mkEnv (mkStream [] st) lg)).
Qed.

Lemma reads_read_quint32 (e : Env) : reads e (snd (read_quint32 e)).
Proof.
  destruct (read_quint32_cases e) as
    [(b3 & b2 & b1 & b0 & rest & Hd & ->)|[_ ->]].
  - split; [|split]; [reflexivity| |now left].
    exists [b3; b2; b1; b0]. now rewrite Hd.
  - destruct e as [[d st] lg]. split; [|split].
    + destruct st; reflexivity.
    + exists d. destruct st; simpl; now rewrite app_nil_r.
    + destruct st; simpl; [right|left..]; auto.
Qed.

(** A value other than 0 was read from four bytes of the device, and the
    status was left alone. *)
Lemma read_quint32_nonzero (e : Env) :
  fst (read_quint32 e) <> 0 ->
  (4 <= length (dev (stream e)))%nat
  /\ q_status (stream (snd (read_quint32 e))) = q_status (stream e).
Proof.
  destruct (read_quint32_cases e) as
    [(b3 & b2 & b1 & b0 & rest & Hd & ->)|[_ ->]]; simpl; intros H.
  - rewrite Hd. simpl. split; [lia|reflexivity].
  - now destruct H.
Qed.

Lemma dev_read_cases (n : N) (e : Env) :
  reads e (snd (dev_read n e))
  /\ (N.of_nat (length (fst (dev_read n e))) = n
      \/ dev (stream (snd (dev_read n e))) = []).
Proof.
  unfold dev_read.
  destruct (N.leb_spec (N.of_nat (length (dev (stream e)))) n) as [Hle|Hgt];
    simpl.
  - split; [|now right]. split; [|split]; [reflexivity| |now left].
    exists (dev (stream e)). now rewrite app_nil_r.
  - split; [|left; rewrite length_take; lia].
    split; [|split]; [reflexivity| |now left].
    exists (take (N.to_nat n) (dev (stream e))). simpl. now rewrite take_drop.
Qed.

Lemma reads_setStatus (st : Status) (e : Env) :
  st = ReadCorruptData \/ dev (stream e) = [] ->
  reads e (snd (setStatus st e)).
Proof.
  intros H. destruct e as [[d s] lg]. unfold setStatus; simpl.
  split; [|split].
  - now destruct s.
  - exists []. now destruct s.
  - destruct s; simpl; [|now left..].
    destruct st; [now left|right|right]; (split; [reflexivity|]).
    + left. split; [reflexivity|]. now destruct H.
    + now right.
Qed.

Lemma reads_read_QString (e : Env) : reads e (snd (read_QString e)).
Proof.
  unfold read_QString, mbind, M_bind.
  pose proof (reads_read_quint32 e) as H0.
  destruct (read_quint32 e) as [v e1]; simpl in H0.
  destruct (v =? 0xffffffff); [exact H0|].
  destruct (0 <? v); [|exact H0].
  destruct (N.odd v).
  - eapply reads_trans; [exact H0|]. apply reads_setStatus. now left.
  - destruct (dev_read_cases v e1) as [H1 H2].
    destruct (dev_read v e1) as [raw e2]; simpl in H1, H2.
    destruct (N.eqb_spec (N.of_nat (length raw)) v) as [E|E]; simpl.
    + eapply reads_trans; eassumption.
    + destruct H2 as [H2|H2]; [contradiction|].
      eapply reads_trans; [exact H0|]. eapply reads_trans; [exact H1|].
      apply reads_setStatus. now right.
Qed.

(** [importBinary] step by step. *)
Lemma importBinary_unfold (this : InstanceFactoryInfo) (e : Env) :
  importBinary this e
  = let r0 := read_quint32 e in
    if negb (fst r0 =? marker)
    then ((false, this), snd (LOG_ERROR msg_start_marker (snd r0)))
    else
      let r1 := read_QString (snd r0) in
      let r2 := read_QString (snd r1) in
      let r3 := read_QString (snd r2) in
      let r4 := read_quint32 (snd r3) in
      let this' := {| d_factory_tag := fst r1; d_instance_tag := fst r3;
                      d_instance_name := fst r2 |} in
      if negb (fst r4 =? marker)
      then ((false, this'), snd (LOG_ERROR msg_end_marker (snd r4)))
      else ((true, this'), snd r4).
Proof.
  unfold importBinary, mbind, M_bind. cbv zeta.
  destruct (read_quint32 e) as [v0 e0]; cbn [fst snd].
  destruct (v0 =? marker); cbn [negb]; [|reflexivity].
  destruct (read_QString e0) as [f e1]; cbn [fst snd].
  destruct (read_QString e1) as [n e2]; cbn [fst snd].
  destruct (read_QString e2) as [t e3]; cbn [fst snd].
  destruct (read_quint32 e3) as [v4 e4]; cbn [fst snd].
  now destruct (v4 =? marker).
Qed.

End ReadFacts.

Section ImportFacts.

Lemma marker_nonzero : marker <> 0.
Proof. discriminate. Qed.

Lemma logger_LOG_ERROR (msg : string) (e : Env) :
  logger (snd (LOG_ERROR msg e)) = logger e ++ [msg]
  /\ stream (snd (LOG_ERROR msg e)) = stream e.
Proof. now split. Qed.

(** The five reads of a full import, one after the other. *)
Lemma reads_import (e : Env) :
  reads e
    (snd (read_quint32
            (snd (read_QString
                    (snd (read_QString
                            (snd (read_QString (snd (read_quint32 e))))))))))
  /\ reads e
       (snd (read_QString
               (snd (read_QString
                       (snd (read_QString (snd (read_quint32 e)))))))).
Proof.
  assert (H3 : reads e
                 (snd (read_QString
                         (snd (read_QString
                                 (snd (read_QString (snd (read_quint32 e)))))))))
    by (eapply reads_trans; [|apply reads_read_QString];
        eapply reads_trans; [|apply reads_read_QString];
        eapply reads_trans; [|apply reads_read_QString];
        apply reads_read_quint32).
  split; [|exact H3].
  eapply reads_trans; [exact H3|apply reads_read_quint32].
Qed.

Lemma read_quint32_ok (e : Env) :
  q_status (stream e) = Ok ->
  q_status (stream (snd (read_quint32 e))) = Ok ->
  dev (stream e)
  = quint32_bytes (fst (read_quint32 e)) ++ dev (stream (snd (read_quint32 e))).
Proof.
  intros Hok Hok'.
  destruct (read_quint32_cases e) as
    [(b3 & b2 & b1 & b0 & rest & Hd & E)|[_ E]]; rewrite E in *.
  - cbn [fst snd with_dev stream dev].
    now rewrite quint32_bytes_of_bytes.
  - destruct e as [[d st] lg]; simpl in *. subst st. discriminate.
Qed.

End ImportFacts.

(** ** Further properties of the descriptor *)

(** Copy construction and assignment give a descriptor equal to [ref],
    whatever [this] held before the assignment. *)
Lemma assign_copy_value (this ref : InstanceFactoryInfo) :
  assign this ref = ref /\ InstanceFactoryInfo_copy ref = ref.
Proof. now destruct ref. Qed.

(** X1. The constructor from a stream restores an exported descriptor: on a
    device that starts with what [exportBinary d] writes it builds [d] and
    consumes exactly these bytes. *)
Theorem stream_constructor_restores
    (d : InstanceFactoryInfo) (rest : list byte) (e : Env) :
  InstanceFactoryInfo_wf d ->
  InstanceFactoryInfo_stream (with_dev (written (exportBinary d) ++ rest) e)
  = (d, with_dev rest e).
Proof.
  intros Hwf. unfold InstanceFactoryInfo_stream.
  now rewrite (bind_run _ _ _ _ _
                 (importBinary_exportBinary d members_default rest e Hwf)).
Qed.

Lemma stream_constructor_restores_witness :
  InstanceFactoryInfo_stream
    (with_dev (written (exportBinary observer_info) ++ [x01]) (env_on []))
  = (observer_info, with_dev [x01] (env_on [])).
Proof.
  apply (stream_constructor_restores observer_info [x01] (env_on [])).
  repeat split; repeat constructor.
Defined.

(** X2. [importBinary] never mixes old and new members: either the start
    marker is missing and [this] is left as it was, or all three members
    are overwritten, so that the outcome does not depend on what [this]
    held, whether the end marker is then found or not. *)
Theorem importBinary_all_or_nothing (this : InstanceFactoryInfo) (e : Env) :
  (fst (read_quint32 e) <> marker
   /\ snd (fst (importBinary this e)) = this)
  \/ (fst (read_quint32 e) = marker
      /\ forall other : InstanceFactoryInfo,
          importBinary other e = importBinary this e).
Proof.
  destruct (N.eqb_spec (fst (read_quint32 e)) marker) as [E|E].
  - right. split; [assumption|]. intros other.
    rewrite !importBinary_unfold. cbv zeta.
    destruct (N.eqb_spec (fst (read_quint32 e)) marker); [|contradiction].
    reflexivity.
  - left. split; [assumption|]. now rewrite importBinary_start.
Qed.

(** X3. [importBinary] logs exactly when it fails: a successful import
    leaves the log as it was, a failed one appends one message, the one for
    the start marker or the one for the end marker. *)
Theorem importBinary_logs_failures (this : InstanceFactoryInfo) (e : Env) :
  (fst (fst (importBinary this e)) = true
   /\ logger (snd (importBinary this e)) = logger e)
  \/ (fst (fst (importBinary this e)) = false
      /\ (logger (snd (importBinary this e)) = logger e ++ [msg_start_marker]
          \/ logger (snd (importBinary this e))
             = logger e ++ [msg_end_marker])).
Proof.
  rewrite importBinary_unfold. cbv zeta.
  destruct (reads_import e) as [(Hl4 & _) _].
  destruct (reads_read_quint32 e) as (Hl0 & _).
  destruct (negb (fst (read_quint32 e) =? marker)).
  - right. split; [reflexivity|left]. cbn [snd LOG_ERROR logger].
    now rewrite Hl0.
  - destruct (negb (_ =? marker)).
    + right. split; [reflexivity|right]. cbn [snd LOG_ERROR logger].
      now rewrite Hl4.
    + left. split; [reflexivity|exact Hl4].
Qed.

(** X4. When the device runs out during an import from a stream that was
    [Ok], so that the stream ends up [ReadPastEnd], [importBinary] returns
    [false]. *)
Theorem importBinary_past_end_fails (this : InstanceFactoryInfo) (e : Env) :
  q_status (stream e) = Ok ->
  q_status (stream (snd (importBinary this e))) = ReadPastEnd ->
  fst (fst (importBinary this e)) = false.
Proof.
  intros Hok. rewrite importBinary_unfold. cbv zeta.
  destruct (negb (fst (read_quint32 e) =? marker)); [reflexivity|].
  destruct (reads_import e) as [_ H3].
  set (e3 := snd (read_QString _)) in *.
  destruct (N.eqb_spec (fst (read_quint32 e3)) marker) as [E|E];
    [|reflexivity].
  cbn [negb snd]. intros Hpe.
  destruct (read_quint32_nonzero e3) as [Hlen Hst].
  { rewrite E. apply marker_nonzero. }
  rewrite Hst in Hpe.
  rewrite (reads_past_end e e3 H3 Hok Hpe) in Hlen. simpl in Hlen. lia.
Qed.

Lemma importBinary_past_end_fails_witness :
  fst (fst (importBinary observer_info (env_on [xdd; xdd; xdd; xdd]))) = false.
Proof.
  apply (importBinary_past_end_fails observer_info
           (env_on [xdd; xdd; xdd; xdd])).
  - reflexivity.
  - vm_compute. reflexivity.
Defined.

Section FramingFacts.

Lemma dev_setStatus (st : Status) (e : Env) :
  dev (stream (snd (setStatus st e))) = dev (stream e).
Proof. destruct e as [[d s] lg]. now destruct s. Qed.

Lemma read_QString_after_length (e : Env) :
  reads (snd (read_quint32 e)) (snd (read_QString e)).
Proof.
  unfold read_QString, mbind, M_bind.
  destruct (read_quint32 e) as [v e1]; cbn [snd].
  destruct (v =? 0xffffffff); [apply reads_refl|].
  destruct (0 <? v); [|apply reads_refl].
  destruct (N.odd v).
  - apply reads_setStatus. now left.
  - destruct (dev_read_cases v e1) as [H1 H2].
    destruct (dev_read v e1) as [raw e2]; cbn [fst snd] in H1, H2.
    destruct (N.eqb_spec (N.of_nat (length raw)) v) as [E|E]; cbn [snd].
    + exact H1.
    + destruct H2 as [H2|H2]; [contradiction|].
      eapply reads_trans; [exact H1|]. apply reads_setStatus. now right.
Qed.

(** A string read either exhausts the device or consumes its length word
    at least. *)
Lemma read_QString_consumes (e : Env) :
  exists c : list byte,
    dev (stream e) = c ++ dev (stream (snd (read_QString e)))
    /\ (dev (stream (snd (read_QString e))) = [] \/ (4 <= length c)%nat).
Proof.
  pose proof (read_QString_after_length e) as Hr.
  destruct (read_quint32_cases e) as
    [(b3 & b2 & b1 & b0 & rest & Hd & E)|[_ E]]; rewrite E in Hr;
    cbn [snd] in Hr.
  - destruct Hr as (_ & [c Hc] & _). simpl in Hc.
    exists ([b3; b2; b1; b0] ++ c). split.
    + rewrite Hd, Hc. reflexivity.
    + right. simpl. lia.
  - destruct (reads_read_QString e) as (_ & [c Hc] & _).
    exists c. split; [exact Hc|left].
    apply (reads_exhausted _ _ Hr). now rewrite dev_setStatus.
Qed.

Lemma read_quint32_nonzero_consumes (e : Env) :
  fst (read_quint32 e) <> 0 ->
  exists c : list byte,
    dev (stream e) = c ++ dev (stream (snd (read_quint32 e)))
    /\ length c = 4%nat.
Proof.
  destruct (read_quint32_cases e) as
    [(b3 & b2 & b1 & b0 & rest & Hd & ->)|[_ ->]]; cbn [fst snd]; intros H.
  - exists [b3; b2; b1; b0]. now rewrite Hd.
  - now destruct H.
Qed.

(** A string cut short exhausts the device. *)
Lemma read_QString_truncated (str : QString) (e : Env) (suf : list byte) :
  QString_wf str -> suf <> [] ->
  dev (stream e) ++ suf = QString_wire str ->
  dev (stream (snd (read_QString e))) = [].
Proof.
  intros [Hsz _] Hsuf Hcut.
  destruct (read_quint32_cases e) as
    [(b3 & b2 & b1 & b0 & rest & Hd & _)|[_ E]].
  - rewrite Hd in Hcut. destruct str as [|l].
    + simpl in Hcut. injection Hcut as _ _ _ _ Hcut.
      now destruct rest, suf.
    + unfold QString_wire, quint32_bytes in Hcut. simpl in Hcut.
      injection Hcut as -> -> -> -> Hcut.
      unfold size in Hsz; simpl in Hsz.
      change (2 ^ 31) with 2147483648 in Hsz.
      assert (Hlen : (length rest < 2 * length l)%nat).
      { apply (f_equal (@length byte)) in Hcut.
        rewrite length_app, length_ushort_bytes in Hcut.
        destruct suf; [contradiction|simpl in Hcut; lia]. }
      rewrite <- (with_dev_id e), Hd.
      change (?a :: ?b :: ?c :: ?d :: rest)
        with (quint32_bytes (2 * N.of_nat (length l)) ++ rest).
      unfold read_QString.
      rewrite (bind_run _ _ _ _ _
                 (read_quint32_bytes (2 * N.of_nat (length l)) rest e
                    ltac:(change (2 ^ 32) with 4294967296; lia))).
      destruct (N.eqb_spec (2 * N.of_nat (length l)) 0xffffffff) as [E|_];
        [lia|].
      destruct (N.ltb_spec 0 (2 * N.of_nat (length l))) as [_|Hz]; [|lia].
      rewrite N.odd_mul, andb_false_l.
      unfold mbind, M_bind, dev_read. cbn [with_dev stream dev].
      destruct (N.leb_spec (N.of_nat (length rest))
                           (2 * N.of_nat (length l))) as [_|Hgt]; [|lia].
      destruct (N.eqb_spec (N.of_nat (length rest))
                           (2 * N.of_nat (length l))) as [E|_]; [lia|].
      unfold setStatus. cbn. now destruct (q_status (stream e)).
  - pose proof (read_QString_after_length e) as Hr. rewrite E in Hr.
    cbn [snd] in Hr.
    apply (reads_exhausted _ _ Hr). now rewrite dev_setStatus.
Qed.

(** Reading one string off a device that holds a strict prefix of
    [QString_wire str ++ R] leaves a strict prefix of [R]. *)
Lemma read_QString_prefix_step
    (str : QString) (R : list byte) (e : Env) (suf : list byte) :
  QString_wf str -> suf <> [] -> R <> [] ->
  dev (stream e) ++ suf = QString_wire str ++ R ->
  exists suf' : list byte,
    suf' <> [] /\ dev (stream (snd (read_QString e))) ++ suf' = R.
Proof.
  intros Hwf Hsuf HR Hcut.
  apply app_eq_app in Hcut as [l [[Hd HRl]|[Hw Hs]]].
  - rewrite <- (with_dev_id e), Hd, (read_QString_wire str l e Hwf).
    exists suf. now split.
  - exists R. split; [assumption|].
    destruct l as [|b l].
    + rewrite app_nil_r in Hw.
      rewrite <- (with_dev_id e), <- Hw, <- (app_nil_r (QString_wire str)).
      now rewrite (read_QString_wire str [] e Hwf).
    + now rewrite (read_QString_truncated str e (b :: l) Hwf).
Qed.

Lemma app_nonnil {A} (l k : list A) : k <> [] -> l ++ k <> [].
Proof. intros Hk H. now apply app_eq_nil in H as [_ ->]. Qed.

Lemma setStatus_with_dev (st : Status) (bytes : list byte) (e : Env) :
  snd (setStatus st (with_dev bytes e)) = with_dev bytes (snd (setStatus st e)).
Proof. destruct e as [[d s] lg]. now destruct s. Qed.

(** An odd length word: the string is null, the status records the
    corruption, and nothing after the length word is consumed. *)
Lemma read_QString_odd (v : quint32) (rest : list byte) (e : Env) :
  v < 2 ^ 32 -> N.odd v = true -> v <> 0xffffffff ->
  read_QString (with_dev (quint32_bytes v ++ rest) e)
  = (QString_null, with_dev rest (snd (setStatus ReadCorruptData e))).
Proof.
  intros Hlt Hodd Hne. unfold read_QString.
  rewrite (bind_run _ _ _ _ _ (read_quint32_bytes v rest e Hlt)).
  destruct (N.eqb_spec v 0xffffffff) as [E|_]; [contradiction|].
  destruct (N.ltb_spec 0 v) as [_|Hz].
  - rewrite Hodd. unfold mbind, M_bind.
    rewrite (surjective_pairing (setStatus _ _)), setStatus_with_dev.
    reflexivity.
  - assert (v = 0) as -> by lia. discriminate Hodd.
Qed.

End FramingFacts.

(** X5. A truncated encoding is rejected: when the device holds a strict
    prefix of what [exportBinary d] writes and nothing else, [importBinary]
    returns [false]. *)
Theorem importBinary_truncated
    (this d : InstanceFactoryInfo) (e : Env) (suf : list byte) :
  InstanceFactoryInfo_wf d -> suf <> [] ->
  dev (stream e) ++ suf = written (exportBinary d) ->
  fst (fst (importBinary this e)) = false.
Proof.
  intros (Hf & Ht & Hn) Hsuf Hcut.
  rewrite written_exportBinary, !written_write_QString in Hcut by assumption.
  assert (HM : [xdd; xdd; xdd; xdd] <> []) by discriminate.
  destruct (read_quint32_cases e) as
    [(b3 & b2 & b1 & b0 & rest & Hd & E)|[Hlt E]].
  - rewrite Hd in Hcut. cbn [app] in Hcut.
    injection Hcut as -> -> -> -> Hcut.
    rewrite importBinary_unfold. cbv zeta. rewrite E. cbn [fst snd].
    change (quint32_of_bytes xdd xdd xdd xdd =? marker) with true.
    cbn [negb].
    destruct (read_QString_prefix_step (d_factory_tag d) _ (with_dev rest e)
                suf Hf Hsuf (app_nonnil _ _ (app_nonnil _ _ HM)) Hcut)
      as (s1 & Hs1 & H1).
    set (e1 := snd (read_QString (with_dev rest e))) in *.
    destruct (read_QString_prefix_step (d_instance_name d) _ e1
                s1 Hn Hs1 (app_nonnil _ _ HM) H1)
      as (s2 & Hs2 & H2).
    set (e2 := snd (read_QString e1)) in *.
    destruct (read_QString_prefix_step (d_instance_tag d) _ e2
                s2 Ht Hs2 HM H2)
      as (s3 & Hs3 & H3).
    set (e3 := snd (read_QString e2)) in *.
    assert (Hlen : (length (dev (stream e3)) < 4)%nat).
    { apply (f_equal (@length byte)) in H3. rewrite length_app in H3.
      destruct s3; [contradiction|cbn [length] in H3; lia]. }
    now rewrite (read_quint32_short e3 Hlen).
  - rewrite importBinary_start; [reflexivity|].
    rewrite E. cbn [fst]. intros H. symmetry in H. now apply marker_nonzero.
Qed.

Lemma importBinary_truncated_witness :
  fst (fst (importBinary members_default
              (env_on (take 50 (written (exportBinary observer_info))))))
  = false.
Proof.
  apply (importBinary_truncated members_default observer_info
           (env_on (take 50 (written (exportBinary observer_info))))
           (drop 50 (written (exportBinary observer_info)))).
  - repeat split; repeat constructor.
  - vm_compute. discriminate.
  - vm_compute. reflexivity.
Defined.

(** X6. A successful import that leaves the stream [Ok] has read an
    encoding: the bytes it consumed are exactly what [exportBinary] writes
    for the descriptor it produced. *)
Theorem importBinary_ok_framed (this d : InstanceFactoryInfo) (e e' : Env) :
  q_status (stream e) = Ok ->
  importBinary this e = ((true, d), e') ->
  q_status (stream e') = Ok ->
  InstanceFactoryInfo_wf d
  /\ dev (stream e) = written (exportBinary d) ++ dev (stream e').
Proof.
  intros Hok Hrun Hok'.
  rewrite importBinary_unfold in Hrun. cbv zeta in Hrun.
  destruct (N.eqb_spec (fst (read_quint32 e)) marker) as [E0|];
    [|discriminate]. cbn [negb] in Hrun.
  set (e0 := snd (read_quint32 e)) in *.
  set (e1 := snd (read_QString e0)) in *.
  set (e2 := snd (read_QString e1)) in *.
  set (e3 := snd (read_QString e2)) in *.
  destruct (N.eqb_spec (fst (read_quint32 e3)) marker) as [E4|];
    [|discriminate]. cbn [negb] in Hrun.
  pose proof (f_equal snd Hrun) as He'. cbn [snd] in He'.
  pose proof (f_equal (fun r => snd (fst r)) Hrun) as Hd. cbn [fst snd] in Hd.
  clear Hrun. subst d e'.
  pose proof (reads_status_Ok _ _ (reads_read_quint32 e3) Hok') as S3.
  pose proof (reads_status_Ok _ _ (reads_read_QString e2) S3) as S2.
  pose proof (reads_status_Ok _ _ (reads_read_QString e1) S2) as S1.
  pose proof (reads_status_Ok _ _ (reads_read_QString e0) S1) as S0.
  pose proof (read_quint32_ok e Hok S0) as B0.
  pose proof (read_quint32_ok e3 S3 Hok') as B4.
  rewrite E0 in B0. rewrite E4 in B4. rewrite marker_bytes in B0, B4.
  destruct (read_QString_ok e0 e1 (fst (read_QString e0)) S0
              (surjective_pairing _) S1) as [W1 Q1].
  destruct (read_QString_ok e1 e2 (fst (read_QString e1)) S1
              (surjective_pairing _) S2) as [W2 Q2].
  destruct (read_QString_ok e2 e3 (fst (read_QString e2)) S2
              (surjective_pairing _) S3) as [W3 Q3].
  split; [exact (conj W1 (conj W3 W2))|].
  rewrite written_exportBinary. cbn [d_factory_tag d_instance_tag d_instance_name].
  rewrite !written_write_QString by assumption.
  fold e0 in B0. rewrite B0, Q1, Q2, Q3, B4.
  now rewrite <- !app_assoc.
Qed.

Lemma importBinary_ok_framed_witness :
  dev (stream (snd (exportBinary observer_info (env_on []))))
  = written (exportBinary observer_info) ++ [].
Proof.
  apply (importBinary_ok_framed members_default observer_info
           (snd (exportBinary observer_info (env_on []))) (env_on [])).
  - reflexivity.
  - vm_compute. reflexivity.
  - reflexivity.
Defined.

(** X7. The status of the stream is not consulted: when the length word of
    the factory tag is odd, which the stream reports as corrupt data, the
    import still returns [true], with a null factory tag, as long as the
    two other strings and the end marker follow the length word. *)
Theorem importBinary_accepts_odd_length
    (this : InstanceFactoryInfo) (v : quint32) (n t : QString)
    (rest : list byte) (e : Env) :
  v < 2 ^ 32 -> N.odd v = true -> v <> 0xffffffff ->
  QString_wf n -> QString_wf t ->
  importBinary this
    (with_dev (quint32_bytes 0xDDDDDDDD ++ quint32_bytes v
               ++ QString_wire n ++ QString_wire t
               ++ quint32_bytes 0xDDDDDDDD ++ rest) e)
  = ((true,
      {| d_factory_tag := QString_null; d_instance_tag := t;
         d_instance_name := n |}),
     with_dev rest (snd (setStatus ReadCorruptData e)))
  /\ (q_status (stream e) = Ok ->
      q_status (stream (snd (setStatus ReadCorruptData e))) = ReadCorruptData).
Proof.
  intros Hlt Hodd Hne Hn Ht. split.
  - unfold importBinary.
    change (quint32_bytes 0xDDDDDDDD) with [xdd; xdd; xdd; xdd].
    cbn [app].
    rewrite (bind_run _ _ _ _ _ (read_quint32_run xdd xdd xdd xdd _ e)).
    change (quint32_of_bytes xdd xdd xdd xdd =? marker) with true.
    cbn [negb].
    rewrite (bind_run _ _ _ _ _ (read_QString_odd v _ e Hlt Hodd Hne)).
    rewrite (bind_run _ _ _ _ _ (read_QString_wire n _ _ Hn)).
    rewrite (bind_run _ _ _ _ _ (read_QString_wire t _ _ Ht)).
    rewrite (bind_run _ _ _ _ _ (read_quint32_run xdd xdd xdd xdd _ _)).
    reflexivity.
  - destruct e as [[d s] lg]; simpl. now intros ->.
Qed.

Lemma importBinary_accepts_odd_length_witness :
  fst (importBinary observer_info
         (with_dev (quint32_bytes 0xDDDDDDDD ++ quint32_bytes 3
                    ++ QString_wire (fromAscii "N") ++ QString_wire QString_null
                    ++ quint32_bytes 0xDDDDDDDD ++ []) (env_on [])))
  = (true,
     {| d_factory_tag := QString_null; d_instance_tag := QString_null;
        d_instance_name := fromAscii "N" |}).
Proof.
  destruct (importBinary_accepts_odd_length observer_info 3 (fromAscii "N")
              QString_null [] (env_on [])) as [H _].
  - reflexivity.
  - reflexivity.
  - discriminate.
  - wf_string.
  - wf_string.
  - rewrite H. reflexivity.
Defined.

(** X8. Descriptors exported one after the other are imported back in the
    same order: two exports followed by two imports on a device that was
    empty give both descriptors back and leave the state as it was. *)
Theorem export_import_sequence
    (d1 d2 this1 this2 : InstanceFactoryInfo) (e : Env) :
  InstanceFactoryInfo_wf d1 -> InstanceFactoryInfo_wf d2 ->
  dev (stream e) = [] ->
  (exportBinary d1;; exportBinary d2;;
   r1 ← importBinary this1; r2 ← importBinary this2; mret (r1, r2)) e
  = (((true, d1), (true, d2)), e).
Proof.
  intros Hwf1 Hwf2 He.
  rewrite (bind_run _ _ _ _ _ (exportBinary_run d1 e)).
  rewrite (bind_run _ _ _ _ _ (exportBinary_run d2 _)).
  rewrite <- !written_exportBinary. cbn [with_dev stream dev q_status logger].
  rewrite He. cbn [app].
  rewrite (bind_run _ _ _ _ _
             (importBinary_exportBinary d1 this1 _ _ Hwf1)).
  rewrite <- (app_nil_r (written (exportBinary d2))).
  rewrite (bind_run _ _ _ _ _
             (importBinary_exportBinary d2 this2 [] _ Hwf2)).
  destruct e as [[d s] lg]. simpl in He. now subst d.
Qed.

Lemma export_import_sequence_witness :
  (exportBinary observer_info;; exportBinary untagged_info;;
   r1 ← importBinary members_default; r2 ← importBinary members_default;
   mret (r1, r2)) (env_on [])
  = (((true, observer_info), (true, untagged_info)), env_on []).
Proof.
  apply (export_import_sequence observer_info untagged_info
           members_default members_default (env_on [])).
  - repeat split; repeat constructor.
  - repeat split; repeat constructor.
  - reflexivity.
Defined.

(** X9. The encoding is prefix free: when two byte sequences that start
    with what [exportBinary] writes for [d1] and for [d2] are equal, so are
    [d1] and [d2], and so is what follows the encodings. *)
Theorem exportBinary_prefix_free
    (d1 d2 : InstanceFactoryInfo) (r1 r2 : list byte) :
  InstanceFactoryInfo_wf d1 -> InstanceFactoryInfo_wf d2 ->
  written (exportBinary d1) ++ r1 = written (exportBinary d2) ++ r2 ->
  d1 = d2 /\ r1 = r2.
Proof.
  intros Hwf1 Hwf2 Heq.
  pose proof (importBinary_exportBinary d1 members_default r1 (env_on []) Hwf1)
    as H1.
  rewrite Heq, (importBinary_exportBinary d2 members_default r2 (env_on []) Hwf2)
    in H1.
  apply pair_equal_spec in H1 as [Hd Hr].
  apply pair_equal_spec in Hd as [_ Hd].
  split; [now symmetry|].
  apply (f_equal (fun e => dev (stream e))) in Hr. now symmetry.
Qed.

Lemma exportBinary_prefix_free_witness :
  observer_info = observer_info /\ [x01] = [x01].
Proof.
  apply (exportBinary_prefix_free observer_info observer_info [x01] [x01]).
  - repeat split; repeat constructor.
  - repeat split; repeat constructor.
  - reflexivity.
Defined.

(** X10. [importBinary] only consumes from the front of the device, and a
    successful import has consumed at least 20 bytes: the two markers and
    the length words of the three strings. *)
Theorem importBinary_consumes (this : InstanceFactoryInfo) (e : Env) :
  exists consumed : list byte,
    dev (stream e) = consumed ++ dev (stream (snd (importBinary this e)))
    /\ (fst (fst (importBinary this e)) = true ->
        (20 <= length consumed)%nat).
Proof.
  rewrite importBinary_unfold. cbv zeta.
  destruct (N.eqb_spec (fst (read_quint32 e)) marker) as [E0|E0];
    cbn [negb].
  - destruct (reads_import e) as [(_ & [c Hc] & _) _].
    pose proof (read_quint32_nonzero_consumes e) as H0.
    set (e0 := snd (read_quint32 e)) in *.
    pose proof (read_QString_consumes e0) as H1.
    set (e1 := snd (read_QString e0)) in *.
    pose proof (read_QString_consumes e1) as H2.
    set (e2 := snd (read_QString e1)) in *.
    pose proof (read_QString_consumes e2) as H3.
    set (e3 := snd (read_QString e2)) in *.
    pose proof (read_quint32_nonzero_consumes e3) as H4.
    destruct (N.eqb_spec (fst (read_quint32 e3)) marker) as [E4|E4];
      cbn [negb fst snd].
    + destruct H0 as (c0 & Hc0 & L0);
        [rewrite E0; apply marker_nonzero|].
      destruct H4 as (c4 & Hc4 & L4);
        [rewrite E4; apply marker_nonzero|].
      destruct H1 as (c1 & Hc1 & L1), H2 as (c2 & Hc2 & L2),
               H3 as (c3 & Hc3 & L3).
      exists (c0 ++ c1 ++ c2 ++ c3 ++ c4). split.
      * rewrite Hc0, Hc1, Hc2, Hc3, Hc4 at 1. now rewrite <- !app_assoc.
      * intros _.
        pose proof (f_equal (@length byte) Hc4) as N4.
        pose proof (f_equal (@length byte) Hc3) as N3.
        pose proof (f_equal (@length byte) Hc2) as N2.
        rewrite length_app in N4, N3, N2.
        assert (Z1 : dev (stream e1) = [] -> length (dev (stream e1)) = 0%nat)
          by (now intros ->).
        assert (Z2 : dev (stream e2) = [] -> length (dev (stream e2)) = 0%nat)
          by (now intros ->).
        assert (Z3 : dev (stream e3) = [] -> length (dev (stream e3)) = 0%nat)
          by (now intros ->).
        destruct L1 as [L1%Z1|L1]; [lia|].
        destruct L2 as [L2%Z2|L2]; [lia|].
        destruct L3 as [L3%Z3|L3]; [lia|].
        rewrite !length_app. lia.
    + exists c. split; [exact Hc|discriminate].
  - destruct (reads_read_quint32 e) as (_ & [c Hc] & _).
    exists c. split; [exact Hc|discriminate].
Qed.

Lemma importBinary_consumes_witness :
  exists consumed : list byte,
    written (exportBinary untagged_info)
    = consumed ++ dev (stream (snd (importBinary members_default
                                      (env_on (written (exportBinary
                                                          untagged_info))))))
    /\ (20 <= length consumed)%nat.
Proof.
  destruct (importBinary_consumes members_default
              (env_on (written (exportBinary untagged_info))))
    as (c & Hc & Hlen).
  exists c. split; [exact Hc|]. apply Hlen. vm_compute. reflexivity.
Defined.

(** X11. Short input: on a device with fewer than four bytes, the empty
    device included, [importBinary] returns [false] and leaves [this] as it
    was; the device is drained, the status records the read past the end
    (unless an earlier error is already recorded), and the start marker
    message is logged. *)
Theorem importBinary_short_input (this : InstanceFactoryInfo) (e : Env) :
  (length (dev (stream e)) < 4)%nat ->
  importBinary this e
  = ((false, this),
     snd (LOG_ERROR msg_start_marker
            (snd (setStatus ReadPastEnd (with_dev [] e))))).
Proof.
  intros Hlen.
  destruct (read_quint32_cases e) as
    [(b3 & b2 & b1 & b0 & rest & Hd & _)|[_ E]].
  - rewrite Hd in Hlen. simpl in Hlen. lia.
  - rewrite importBinary_start; rewrite E; [reflexivity|].
    cbn [fst]. intros H. symmetry in H. now apply marker_nonzero.
Qed.

Lemma importBinary_short_input_witness :
  importBinary observer_info (env_on [])
  = ((false, observer_info),
     {| stream := {| dev := []; q_status := ReadPastEnd |};
        logger := [msg_start_marker] |}).
Proof.
  rewrite (importBinary_short_input observer_info (env_on [])).
  - reflexivity.
  - simpl. lia.
Defined.
